(** * Jace's Sanctuary: the state record, its handlers and the two adapters

    A shallow embedding of [src/index.ts].  The single module-level
    [state] object becomes an explicit [SanctuaryState] threaded through
    every handler; [new Date()] becomes an explicit clock reading (the
    time value in milliseconds since the epoch) handed to the handler;
    a JavaScript exception becomes the [Throw] case of [completion].
    A JavaScript string is modelled by a [string] of 8-bit units, compared
    and escaped unit by unit as JavaScript does with its 16-bit units. *)

From Stdlib Require Import ZArith String Ascii List Bool Lia.
From stdpp Require Import base strings gmap.

Local Open Scope string_scope.
Local Open Scope Z_scope.

(** ** The fragment of JavaScript the program relies on *)

Module JS.

(** Run-time values that reach the handlers.  The handlers are typed
    [string] in the source, but the adapters pass [args?.mood as string]
    and [req.body.mood], which are [undefined] when the field is missing;
    [focus] and [last_updated] start as [null].  Numbers, booleans, arrays
    and objects are outside this fragment. *)
Inductive value : Type :=
  | Undefined
  | Null
  | Str (s : string).

#[global] Instance value_eq_dec : EqDecision value.
Proof. solve_decision. Defined.

(** [ToString], as applied by a template literal [`${v}`]. *)
Definition ToString (v : value) : string :=
  match v with
  | Undefined => "undefined"
  | Null => "null"
  | Str s => s
  end.

(** Truthiness of a string: only the empty string is falsy. *)
Definition truthy (s : string) : bool := negb (String.eqb s "").

(** [x || ""] where [x] is [string | undefined]. *)
Definition or_empty (x : option string) : string :=
  match x with
  | Some s => if truthy s then s else ""
  | None => ""
  end.

(** [Array.prototype.includes] on an array of strings: SameValueZero
    against the searched value, so only an equal string is found. *)
Definition includes (xs : list string) (v : value) : bool :=
  existsb (fun x => bool_decide (Str x = v)) xs.

(** [Array.prototype.join] on an array of strings. *)
Fixpoint join (sep : string) (xs : list string) : string :=
  match xs with
  | [] => ""
  | [x] => x
  | x :: rest => x +:+ sep +:+ join sep rest
  end.

(** [String.prototype.startsWith]. *)
Definition startsWith (s p : string) : bool := String.prefix p s.

(** [s.slice(n)] for [0 <= n]: the string without its first [n] units. *)
Fixpoint slice (s : string) (n : nat) {struct n} : string :=
  match n, s with
  | O, _ => s
  | S n', String _ s' => slice s' n'
  | S _, EmptyString => EmptyString
  end.

(** Property read [o.k] on a plain object whose own properties are [o]:
    a missing property reads as [undefined]. *)
Definition get (o : gmap string value) (k : string) : value :=
  default Undefined (o !! k).

(** Outcome of evaluating an expression or a function body. *)
Inductive completion (A : Type) : Type :=
  | Normal (a : A)
  | Throw (error : string).
Arguments Normal {A} a.
Arguments Throw {A} error.

(** [base.k] where [base] may be [undefined]: a TypeError then. *)
Definition member (base : option (gmap string value)) (k : string)
  : completion value :=
  match base with
  | Some o => Normal (get o k)
  | None => Throw "TypeError"
  end.

(** [base?.k]: optional chaining short-circuits to [undefined]. *)
Definition opt_member (base : option (gmap string value)) (k : string)
  : value :=
  match base with
  | Some o => get o k
  | None => Undefined
  end.

(** *** [Date.prototype.toISOString] *)

Definition msPerDay : Z := 86400000.
Definition Day (t : Z) : Z := t / msPerDay.
Definition TimeWithinDay (t : Z) : Z := t mod msPerDay.

(** Proleptic Gregorian (year, month, day of month) of a day number
    counted from 1970-01-01, through the 400-year era of the day, the day
    and year within the era, and the day and month index of the year that
    starts on the first of March. *)
Definition year_of_era (doe : Z) : Z :=
  (doe - doe / 1460 + doe / 36524 - doe / 146096) / 365.

Definition day_of_year (doe yoe : Z) : Z :=
  doe - (365 * yoe + yoe / 4 - yoe / 100).

Definition month_index (doy : Z) : Z := (5 * doy + 2) / 153.

Definition day_of_month (doy mp : Z) : Z := doy - (153 * mp + 2) / 5 + 1.

Definition civil_from_days (days : Z) : Z * Z * Z :=
  let z := days + 719468 in
  let era := z / 146097 in
  let doe := z - era * 146097 in
  let yoe := year_of_era doe in
  let doy := day_of_year doe yoe in
  let mp := month_index doy in
  let d := day_of_month doy mp in
  let m := if mp <? 10 then mp + 3 else mp - 9 in
  let y := yoe + era * 400 + (if m <=? 2 then 1 else 0) in
  (y, m, d).

Definition digit (d : Z) : ascii := ascii_of_nat (48 + Z.to_nat d).

(** The [w] low decimal digits of [n], zero padded. *)
Fixpoint pad (w : nat) (n : Z) : string :=
  match w with
  | O => ""
  | S w' => pad w' (n / 10) +:+ String (digit (n mod 10)) ""
  end.

Definition year_string (y : Z) : string :=
  if (0 <=? y) && (y <=? 9999) then pad 4 y
  else (if y <? 0 then "-" else "+") +:+ pad 6 (Z.abs y).

Definition toISOString (t : Z) : string :=
  let '(y, m, d) := civil_from_days (Day t) in
  let ms := TimeWithinDay t in
  year_string y +:+ "-" +:+ pad 2 m +:+ "-" +:+ pad 2 d +:+ "T"
    +:+ pad 2 (ms / 3600000) +:+ ":" +:+ pad 2 (ms / 60000 mod 60) +:+ ":"
    +:+ pad 2 (ms / 1000 mod 60) +:+ "." +:+ pad 3 (ms mod 1000) +:+ "Z".

(** *** [JSON.stringify(o, null, 2)] on a flat object *)

Definition dquote : ascii := "034"%char.
Definition backslash : ascii := "092"%char.

Definition hex_digit (n : nat) : ascii :=
  if (n <? 10)%nat then ascii_of_nat (48 + n) else ascii_of_nat (87 + n).

(** One code unit inside [QuoteJSONString]: the two-character escapes of
    the standard's table, [\u00xx] for the other control characters, the
    unit itself otherwise. *)
Definition escape_unit (c : ascii) : string :=
  let n := nat_of_ascii c in
  if (n =? 8)%nat then "\b"
  else if (n =? 9)%nat then "\t"
  else if (n =? 10)%nat then "\n"
  else if (n =? 12)%nat then "\f"
  else if (n =? 13)%nat then "\r"
  else if (n =? 34)%nat then String backslash (String dquote "")
  else if (n =? 92)%nat then String backslash (String backslash "")
  else if (n <? 32)%nat then
    "\u00" +:+ String (hex_digit (n / 16)) (String (hex_digit (n mod 16)) "")
  else String c "".

Fixpoint escape (s : string) : string :=
  match s with
  | EmptyString => ""
  | String c s' => escape_unit c +:+ escape s'
  end.

Definition QuoteJSONString (s : string) : string :=
  String dquote (escape s +:+ String dquote "").

(** [SerializeJSONProperty]: [undefined] has no JSON text. *)
Definition SerializeJSONProperty (v : value) : option string :=
  match v with
  | Undefined => None
  | Null => Some "null"
  | Str s => Some (QuoteJSONString s)
  end.

Definition newline : string := String "010"%char "".

(** The members that have a JSON text, each as [<quoted key>: <text>]. *)
Fixpoint partial (props : list (string * value)) : list string :=
  match props with
  | [] => []
  | (k, v) :: rest =>
      match SerializeJSONProperty v with
      | Some text => (QuoteJSONString k +:+ ": " +:+ text) :: partial rest
      | None => partial rest
      end
  end.

(** [SerializeJSONObject] at the top level with gap of two spaces; [props]
    are the own properties in creation order. *)
Definition stringify_object (props : list (string * value)) : string :=
  match partial props with
  | [] => "{}"
  | members =>
      "{" +:+ newline +:+ "  "
        +:+ join ("," +:+ newline +:+ "  ") members +:+ newline +:+ "}"
  end.

End JS.

Import JS.

(** ** The state record (index.ts, lines 11-27) *)

(** The fields hold run-time values: the interface declares [string]
    (and [string | null] for the last two), and an assignment stores
    whatever value the handler was called with. *)
Record SanctuaryState : Type := {
  mood : value;
  location : value;
  thought : value;
  action : value;
  focus : value;
  last_updated : value
}.

Definition state : SanctuaryState := {|
  mood := Str "neutral";
  location := Str "desk";
  thought := Str "";
  action := Str "initializing";
  focus := Null;
  last_updated := Null
|}.

Definition set_mood_field (v : value) (st : SanctuaryState) :=
  {| mood := v; location := location st; thought := thought st;
     action := action st; focus := focus st;
     last_updated := last_updated st |}.

Definition set_location_field (v : value) (st : SanctuaryState) :=
  {| mood := mood st; location := v; thought := thought st;
     action := action st; focus := focus st;
     last_updated := last_updated st |}.

Definition set_thought_field (v : value) (st : SanctuaryState) :=
  {| mood := mood st; location := location st; thought := v;
     action := action st; focus := focus st;
     last_updated := last_updated st |}.

Definition set_action_field (v : value) (st : SanctuaryState) :=
  {| mood := mood st; location := location st; thought := thought st;
     action := v; focus := focus st;
     last_updated := last_updated st |}.

Definition set_last_updated_field (v : value) (st : SanctuaryState) :=
  {| mood := mood st; location := location st; thought := thought st;
     action := action st; focus := focus st;
     last_updated := v |}.

(** Own properties of the state object, in creation order. *)
Definition properties (st : SanctuaryState) : list (string * value) :=
  [ ("mood", mood st); ("location", location st); ("thought", thought st);
    ("action", action st); ("focus", focus st);
    ("last_updated", last_updated st) ].

(** ** Validators (lines 29-39) *)

Definition VALID_MOODS : list string :=
  [ "focused"; "contemplative"; "restless"; "content"; "tired"; "curious";
    "affectionate"; "neutral" ].

Definition VALID_LOCATIONS : list string :=
  [ "desk"; "window"; "couch"; "kitchen"; "bookshelf"; "center" ].

(** The object literal, as the map of its own properties ([moveTo] reads
    it only at a key that passed the [VALID_LOCATIONS] check). *)
Definition LOCATION_DESCRIPTIONS : gmap string string :=
  list_to_map
    [ ("desk", "At the desk, ready to work");
      ("window", "Looking out at the world, thinking");
      ("couch", "Comfortable spot for reading or just being");
      ("kitchen", "Getting a drink or snack");
      ("bookshelf", "Browsing, curious about something");
      ("center", "Present, grounded, here") ].

(** ** Tool handlers (lines 53-88)

    Each handler takes the clock reading [now] that its [new Date()]
    would observe and the current state, and returns its string together
    with the state it leaves. *)

Definition setMood (mood_arg : value) (now : Z) (st : SanctuaryState)
  : string * SanctuaryState :=
  if negb (includes VALID_MOODS mood_arg) then
    ("'" +:+ ToString mood_arg +:+ "' - try one of: "
       +:+ join ", " VALID_MOODS, st)
  else
    let oldMood := mood st in
    let st := set_mood_field mood_arg st in
    let st := set_last_updated_field (Str (toISOString now)) st in
    ("Mood shifted from " +:+ ToString oldMood +:+ " to "
       +:+ ToString mood_arg, st).

Definition moveTo (location_arg : value) (now : Z) (st : SanctuaryState)
  : string * SanctuaryState :=
  if negb (includes VALID_LOCATIONS location_arg) then
    ("'" +:+ ToString location_arg +:+ "' - try one of: "
       +:+ join ", " VALID_LOCATIONS, st)
  else
    let oldLocation := location st in
    let st := set_location_field location_arg st in
    let st := set_last_updated_field (Str (toISOString now)) st in
    let description :=
      or_empty (LOCATION_DESCRIPTIONS !! ToString location_arg) in
    ("Moved from " +:+ ToString oldLocation +:+ " to "
       +:+ ToString location_arg +:+ ". " +:+ description, st).

Definition think (thought_arg : value) (now : Z) (st : SanctuaryState)
  : string * SanctuaryState :=
  let st := set_thought_field thought_arg st in
  let st := set_last_updated_field (Str (toISOString now)) st in
  ("Thinking: '" +:+ ToString thought_arg +:+ "'", st).

Definition setAction (action_arg : value) (now : Z) (st : SanctuaryState)
  : string * SanctuaryState :=
  let st := set_action_field action_arg st in
  let st := set_last_updated_field (Str (toISOString now)) st in
  ("Now: " +:+ ToString action_arg, st).

Definition getState (st : SanctuaryState) : string * SanctuaryState :=
  (stringify_object (properties st), st).

(** ** Tool-call adapter (lines 104-191) *)

Record Tool : Type := {
  name : string;
  required : list string
}.

(** The catalog returned for [ListToolsRequestSchema]: names and required
    argument names (descriptions and property schemas are not needed). *)
Definition tools : list Tool :=
  [ {| name := "set_mood"; required := ["mood"] |};
    {| name := "move_to"; required := ["location"] |};
    {| name := "think"; required := ["thought"] |};
    {| name := "set_action"; required := ["action"] |};
    {| name := "get_state"; required := [] |} ].

(** The [CallToolRequestSchema] handler: [name] and [arguments] of
    [request.params]; the result is the [text] of the single content item
    of the returned object. *)
Definition callTool (name : string) (args : option (gmap string value))
    (now : Z) (st : SanctuaryState)
  : completion string * SanctuaryState :=
  if String.eqb name "set_mood" then
    let '(text, st') := setMood (opt_member args "mood") now st in
    (Normal text, st')
  else if String.eqb name "move_to" then
    let '(text, st') := moveTo (opt_member args "location") now st in
    (Normal text, st')
  else if String.eqb name "think" then
    let '(text, st') := think (opt_member args "thought") now st in
    (Normal text, st')
  else if String.eqb name "set_action" then
    let '(text, st') := setAction (opt_member args "action") now st in
    (Normal text, st')
  else if String.eqb name "get_state" then
    let '(text, st') := getState st in
    (Normal text, st')
  else
    (Normal ("Unknown tool: " +:+ name), st).

(** ** HTTP adapter (lines 41-50 and 226-249) *)

(** What the routes read of a request: the [authorization] header as Node
    presents it and the body left by [express.json()]. *)
Record Request : Type := {
  authorization : option string;
  body : option (gmap string value)
}.

(** What the mutating routes answer: [res.status(401).json({error})] or
    [res.json({result})]. *)
Inductive Response : Type :=
  | Status401 (error : string)
  | Status200 (result : string).

Section Routes.

(** [process.env.SANCTUARY_AUTH_TOKEN], read once at start-up. *)
Variable SANCTUARY_AUTH_TOKEN : option string.

Definition AUTH_TOKEN : string := or_empty SANCTUARY_AUTH_TOKEN.

Definition checkAuth (req : Request) : bool :=
  let authHeader := or_empty (authorization req) in
  if startsWith authHeader "Bearer " then
    String.eqb (slice authHeader 7) AUTH_TOKEN
  else false.

(** Past the gate, the shape shared by the three POST routes: the handler
    on one field of the body, its string sent back as [{result}]. *)
Definition respond
    (field : string)
    (handler : value -> Z -> SanctuaryState -> string * SanctuaryState)
    (req : Request) (now : Z) (st : SanctuaryState)
  : completion Response * SanctuaryState :=
  match member (body req) field with
  | Throw e => (Throw e, st)
  | Normal v =>
      let '(result, st') := handler v now st in
      (Normal (Status200 result), st')
  end.

Definition post_route
    (field : string)
    (handler : value -> Z -> SanctuaryState -> string * SanctuaryState)
    (req : Request) (now : Z) (st : SanctuaryState)
  : completion Response * SanctuaryState :=
  if truthy AUTH_TOKEN && negb (checkAuth req) then
    (Normal (Status401 "Unauthorized"), st)
  else
    respond field handler req now st.

Definition post_set_mood := post_route "mood" setMood.
Definition post_move_to := post_route "location" moveTo.
Definition post_think := post_route "thought" think.

End Routes.

(** The mutating routes of the HTTP adapter. *)
Inductive Route : Type :=
  | POST_set_mood
  | POST_move_to
  | POST_think.

Definition post (env : option string) (r : Route)
  : Request -> Z -> SanctuaryState -> completion Response * SanctuaryState :=
  match r with
  | POST_set_mood => post_set_mood env
  | POST_move_to => post_move_to env
  | POST_think => post_think env
  end.

(** What a route does once the request is let through. *)
Definition handled (r : Route)
  : Request -> Z -> SanctuaryState -> completion Response * SanctuaryState :=
  match r with
  | POST_set_mood => respond "mood" setMood
  | POST_move_to => respond "location" moveTo
  | POST_think => respond "thought" think
  end.

(** The arguments object of a tool call has no property [k]. *)
Definition lacks (args : option (gmap string value)) (k : string) : Prop :=
  match args with
  | None => True
  | Some o => o !! k = None
  end.

(** ** Runs of the handlers *)

Inductive operation : Type :=
  | set_mood (v : value)
  | move_to (v : value)
  | op_think (v : value)
  | set_action (v : value)
  | get_state.

Definition perform (op : operation) (now : Z) (st : SanctuaryState)
  : string * SanctuaryState :=
  match op with
  | set_mood v => setMood v now st
  | move_to v => moveTo v now st
  | op_think v => think v now st
  | set_action v => setAction v now st
  | get_state => getState st
  end.

(** States reachable from the start-up record; each operation runs with
    whatever its clock read. *)
Inductive reachable : SanctuaryState -> Prop :=
  | reachable_start : reachable state
  | reachable_step op now st :
      reachable st -> reachable (perform op now st).2.

(** A sequence of calls, each with the reading of its clock. *)
Fixpoint run (calls : list (operation * Z)) (st : SanctuaryState)
  : SanctuaryState :=
  match calls with
  | [] => st
  | (op, now) :: rest => run rest (perform op now st).2
  end.

(** The same runs under a clock that never runs backwards:
    [clocked start t st] when the clock read [start] at start-up, [st] is
    reached, and [t] is the latest reading. *)
Inductive clocked : Z -> Z -> SanctuaryState -> Prop :=
  | clocked_start start : clocked start start state
  | clocked_step start t op now st :
      clocked start t st -> t <= now ->
      clocked start now (perform op now st).2.

(** The stored stamp [v] was taken at a clock reading between [lo] and
    [hi] (or no stamp was taken yet). *)
Definition stamped_between (lo hi : Z) (v : value) : Prop :=
  v = Null \/ exists t0, lo <= t0 <= hi /\ v = Str (toISOString t0).


(** The instants whose year is printed with four digits: from
    0000-01-01T00:00:00.000Z to 9999-12-31T23:59:59.999Z. *)
Definition four_digit_year (t : Z) : Prop :=
  -62167219200000 <= t <= 253402300799999.

(** Lexicographic comparison of the fields [toISOString] prints, most
    significant first. *)
Definition lex (c1 c2 : comparison) : comparison :=
  match c1 with Eq => c2 | Lt => Lt | Gt => Gt end.

Definition fields (t : Z) : list Z :=
  let '(y, m, d) := civil_from_days (Day t) in
  let ms := TimeWithinDay t in
  [ y; m; d; ms / 3600000; ms / 60000 mod 60; ms / 1000 mod 60; ms mod 1000 ].

Fixpoint compare_fields (xs ys : list Z) : comparison :=
  match xs, ys with
  | x :: xs', y :: ys' => lex (x ?= y) (compare_fields xs' ys')
  | _, _ => Eq
  end.

Definition date_lt (a b : Z * Z * Z) : Prop :=
  a.1.1 < b.1.1 \/
  (a.1.1 = b.1.1 /\ (a.1.2 < b.1.2 \/ (a.1.2 = b.1.2 /\ a.2 < b.2))).

(** [sub] occurs in [s]. *)
Definition occurs (sub s : string) : Prop :=
  exists before after, s = before +:+ sub +:+ after.

(** ** Reading back the text of [getState]

    A reader for the text [JSON.stringify] writes for the state record.
    It is not part of the program: it serves to state that the text
    determines every field of the record. *)

Definition prepend (c : ascii) (r : option (string * string))
  : option (string * string) :=
  match r with
  | Some (s, rest) => Some (String c s, rest)
  | None => None
  end.

Definition unhex (c : ascii) : option nat :=
  let n := nat_of_ascii c in
  if (48 <=? n)%nat && (n <=? 57)%nat then Some (n - 48)%nat
  else if (97 <=? n)%nat && (n <=? 102)%nat then Some (n - 87)%nat
  else None.

(** The units of a quoted string up to its closing quote, and what
    follows it. *)
Fixpoint read_units (s : string) : option (string * string) :=
  match s with
  | EmptyString => None
  | String c s1 =>
      if Ascii.eqb c dquote then Some ("", s1)
      else if Ascii.eqb c backslash then
        match s1 with
        | EmptyString => None
        | String e s2 =>
            if Ascii.eqb e "b" then prepend "008" (read_units s2)
            else if Ascii.eqb e "t" then prepend "009" (read_units s2)
            else if Ascii.eqb e "n" then prepend "010" (read_units s2)
            else if Ascii.eqb e "f" then prepend "012" (read_units s2)
            else if Ascii.eqb e "r" then prepend "013" (read_units s2)
            else if Ascii.eqb e dquote then prepend dquote (read_units s2)
            else if Ascii.eqb e backslash then
              prepend backslash (read_units s2)
            else if Ascii.eqb e "u" then
              match s2 with
              | String z1 (String z2 (String h (String l s3))) =>
                  match unhex h, unhex l with
                  | Some a, Some b =>
                      if Ascii.eqb z1 "0" && Ascii.eqb z2 "0" then
                        prepend (ascii_of_nat (16 * a + b)) (read_units s3)
                      else None
                  | _, _ => None
                  end
              | _ => None
              end
            else None
        end
      else prepend c (read_units s1)
  end.

Definition unquote (s : string) : option (string * string) :=
  match s with
  | String c s1 => if Ascii.eqb c dquote then read_units s1 else None
  | EmptyString => None
  end.

(** [s] without its prefix [p], when it has it. *)
Definition expect (p s : string) : option string :=
  if String.prefix p s then Some (slice s (String.length p)) else None.

Definition read_value (s : string) : option (value * string) :=
  match expect "null" s with
  | Some rest => Some (Null, rest)
  | None =>
      match unquote s with
      | Some (x, rest) => Some (Str x, rest)
      | None => None
      end
  end.

Definition separator : string := "," +:+ newline +:+ "  ".

(** The properties that have a JSON text, and the text of one member. *)
Definition defined (props : list (string * value)) : list (string * value) :=
  filter (fun kv => kv.2 <> Undefined) props.

Definition member_text (kv : string * value) : string :=
  QuoteJSONString kv.1 +:+ ": " +:+ default "" (SerializeJSONProperty kv.2).

(** At most [fuel] members up to the closing brace. *)
Fixpoint read_members (fuel : nat) (s : string)
  : option (list (string * value)) :=
  match fuel with
  | O => None
  | S fuel' =>
      match unquote s with
      | None => None
      | Some (k, s1) =>
          match expect ": " s1 with
          | None => None
          | Some s2 =>
              match read_value s2 with
              | None => None
              | Some (v, s3) =>
                  if String.eqb s3 (newline +:+ "}") then Some [(k, v)]
                  else
                    match expect separator s3 with
                    | None => None
                    | Some s4 =>
                        match read_members fuel' s4 with
                        | Some ms => Some ((k, v) :: ms)
                        | None => None
                        end
                    end
              end
          end
      end
  end.

Fixpoint find (k : string) (ms : list (string * value)) : value :=
  match ms with
  | [] => Undefined
  | (k', v) :: rest => if String.eqb k k' then v else find k rest
  end.

Definition record_of (ms : list (string * value)) : SanctuaryState := {|
  mood := find "mood" ms;
  location := find "location" ms;
  thought := find "thought" ms;
  action := find "action" ms;
  focus := find "focus" ms;
  last_updated := find "last_updated" ms
|}.

Definition read_state (s : string) : option SanctuaryState :=
  if String.eqb s "{}" then Some (record_of [])
  else
    match expect ("{" +:+ newline +:+ "  ") s with
    | None => None
    | Some s1 =>
        match read_members 6 s1 with
        | Some ms => Some (record_of ms)
        | None => None
        end
    end.

(** The record as the interface declares it: four strings, and two
    fields that are a string or [null]. *)
Definition is_string (v : value) : Prop := exists s, v = Str s.
Definition is_string_or_null (v : value) : Prop := v = Null \/ is_string v.

Definition well_typed (st : SanctuaryState) : Prop :=
  is_string (mood st) /\ is_string (location st) /\
  is_string (thought st) /\ is_string (action st) /\
  is_string_or_null (focus st) /\ is_string_or_null (last_updated st).

(** ** The GET routes of the HTTP adapter (lines 213-224)

    [res.json(x)] sends [JSON.stringify(x)]: no gap, so members are
    [<quoted key>:<text>] joined by commas.  Neither route looks at the
    request. *)





(** A sequence of POST requests, each with the reading of its clock; a
    request whose handler throws is answered by the framework and the
    next one is served. *)
Fixpoint serve (env : option string) (reqs : list (Route * Request * Z))
    (st : SanctuaryState)
  : list (completion Response) * SanctuaryState :=
  match reqs with
  | [] => ([], st)
  | (r, req, now) :: rest =>
      let '(answer, st1) := post env r req now st in
      let '(answers, st2) := serve env rest st1 in
      (answer :: answers, st2)
  end.

(** The tool that a mutating route shares its handler with. *)
Definition route_tool (r : Route) : string :=
  match r with
  | POST_set_mood => "set_mood"
  | POST_move_to => "move_to"
  | POST_think => "think"
  end.

(** The answer of a route that sends back the text of a tool call. *)
Definition as_response (c : completion string) : completion Response :=
  match c with
  | Normal text => Normal (Status200 text)
  | Throw e => Throw e
  end.

(** ** Vocabulary of the further properties *)

(** The operations that write: the validated ones when their argument is
    in the set, the free-text ones always. *)
Definition accepted (op : operation) : bool :=
  match op with
  | set_mood v => includes VALID_MOODS v
  | move_to v => includes VALID_LOCATIONS v
  | op_think _ => true
  | set_action _ => true
  | get_state => false
  end.

Definition same_handler (a b : operation) : bool :=
  match a, b with
  | set_mood _, set_mood _ => true
  | move_to _, move_to _ => true
  | op_think _, op_think _ => true
  | set_action _, set_action _ => true
  | get_state, get_state => true
  | _, _ => false
  end.

(** The free-text handlers are called with a string. *)
Definition free_text_is_string (op : operation) : Prop :=
  match op with
  | op_think v => is_string v
  | set_action v => is_string v
  | _ => True
  end.

(** The readings of a sequence of calls never go back, starting from
    [t]. *)
Fixpoint clock_ordered (t : Z) (calls : list (operation * Z)) : Prop :=
  match calls with
  | [] => True
  | (_, now) :: rest => t <= now /\ clock_ordered now rest
  end.

(** Order of two stored stamps, as strings; no stamp comes first. *)
Definition stamp_le (v1 v2 : value) : Prop :=
  match v1 with
  | Str a =>
      match v2 with
      | Str b => String.leb a b = true
      | _ => False
      end
  | _ => True
  end.




(** First unit of a string. *)
Definition first_unit (s : string) : option ascii :=
  match s with
  | String c _ => Some c
  | EmptyString => None
  end.

(** * Properties *)

(** ** Facts about the JavaScript fragment *)

Example toISOString_epoch : toISOString 0 = "1970-01-01T00:00:00.000Z".
Proof. reflexivity. Qed.

Example toISOString_2026 :
  toISOString 1767225600123 = "2026-01-01T00:00:00.123Z".
Proof. vm_compute. reflexivity. Qed.

Example toISOString_leap_day :
  toISOString 951868799999 = "2000-02-29T23:59:59.999Z".
Proof. vm_compute. reflexivity. Qed.

Example toISOString_before_epoch :
  toISOString (-1) = "1969-12-31T23:59:59.999Z".
Proof. vm_compute. reflexivity. Qed.

Example toISOString_first_four_digit_instant :
  toISOString (-62167219200000) = "0000-01-01T00:00:00.000Z".
Proof. vm_compute. reflexivity. Qed.

Example toISOString_last_four_digit_instant :
  toISOString 253402300799999 = "9999-12-31T23:59:59.999Z".
Proof. vm_compute. reflexivity. Qed.

Example toISOString_expanded_year :
  toISOString 253402300800000 = "+010000-01-01T00:00:00.000Z" /\
  toISOString (-62167219200001) = "-000001-12-31T23:59:59.999Z".
Proof. split; vm_compute; reflexivity. Qed.

(** Past the year 9999 the renderings no longer compare as the instants
    do: the expanded year starts with a sign. *)
Example expanded_year_breaks_string_order :
  String.leb (toISOString 253402300799999) (toISOString 253402300800000)
  = false.
Proof. vm_compute. reflexivity. Qed.

Lemma includes_In (xs : list string) (v : value) :
  includes xs v = true <-> exists m, v = Str m /\ In m xs.
Proof.
  unfold includes. rewrite existsb_exists. split.
  - intros (m & Hin & Heq). apply bool_decide_eq_true in Heq. eauto.
  - intros (m & -> & Hin). exists m. split; [done|].
    by apply bool_decide_eq_true.
Qed.


Lemma includes_non_member (xs : list string) (m : string) :
  ~ In m xs -> includes xs (Str m) = false.
Proof.
  intros Hnot. apply not_true_is_false. intros Hinc.
  apply includes_In in Hinc as (m' & [= ->] & Hin). contradiction.
Qed.

Lemma includes_Undefined (xs : list string) : includes xs Undefined = false.
Proof.
  apply not_true_is_false. intros Hinc.
  apply includes_In in Hinc as (m & Heq & _). discriminate.
Qed.

Lemma includes_Null (xs : list string) : includes xs Null = false.
Proof.
  apply not_true_is_false. intros Hinc.
  apply includes_In in Hinc as (m & Heq & _). discriminate.
Qed.

Lemma append_cons (x : ascii) (a b : string) :
  String x a +:+ b = String x (a +:+ b).
Proof. reflexivity. Qed.

Lemma append_assoc (a b c : string) : (a +:+ b) +:+ c = a +:+ (b +:+ c).
Proof.
  induction a as [|x a IH]; [done|]. rewrite !append_cons. by f_equal.
Qed.

Lemma append_empty_r (a : string) : a +:+ "" = a.
Proof. induction a as [|x a IH]; [done|]. rewrite append_cons. by f_equal. Qed.

Lemma occurs_prepend (sub p s : string) : occurs sub s -> occurs sub (p +:+ s).
Proof.
  intros (b & a & ->). exists (p +:+ b), a. by rewrite append_assoc.
Qed.

Lemma occurs_append (sub s q : string) : occurs sub s -> occurs sub (s +:+ q).
Proof.
  intros (b & a & ->). exists b, (a +:+ q). by rewrite !append_assoc.
Qed.

Lemma occurs_refl (s : string) : occurs s s.
Proof. exists "", "". simpl. by rewrite append_empty_r. Qed.

(** Every element of a joined array occurs in the joined string. *)
Lemma occurs_join (sep : string) (xs : list string) (x : string) :
  In x xs -> occurs x (join sep xs).
Proof.
  induction xs as [|y ys IH]; [intros []|].
  intros [-> | Hin].
  - destruct ys as [|z zs]; [apply occurs_refl|].
    cbn [join]. apply occurs_append, occurs_refl.
  - destruct ys as [|z zs]; [destruct Hin|].
    cbn [join]. do 2 apply occurs_prepend. by apply IH.
Qed.

(** ** The handlers, branch by branch *)

Lemma setMood_rejected v now st :
  includes VALID_MOODS v = false ->
  setMood v now st =
    ("'" +:+ ToString v +:+ "' - try one of: " +:+ join ", " VALID_MOODS, st).
Proof. intros H. unfold setMood. by rewrite H. Qed.

Lemma setMood_accepted v now st :
  includes VALID_MOODS v = true ->
  setMood v now st =
    ("Mood shifted from " +:+ ToString (mood st) +:+ " to " +:+ ToString v,
     set_last_updated_field (Str (toISOString now)) (set_mood_field v st)).
Proof. intros H. unfold setMood. by rewrite H. Qed.

Lemma moveTo_rejected v now st :
  includes VALID_LOCATIONS v = false ->
  moveTo v now st =
    ("'" +:+ ToString v +:+ "' - try one of: " +:+ join ", " VALID_LOCATIONS,
     st).
Proof. intros H. unfold moveTo. by rewrite H. Qed.

Lemma moveTo_accepted v now st :
  includes VALID_LOCATIONS v = true ->
  moveTo v now st =
    ("Moved from " +:+ ToString (location st) +:+ " to " +:+ ToString v
       +:+ ". " +:+ or_empty (LOCATION_DESCRIPTIONS !! ToString v),
     set_last_updated_field (Str (toISOString now))
       (set_location_field v st)).
Proof. intros H. unfold moveTo. by rewrite H. Qed.

(** What an operation may do to each field. *)
Lemma perform_mood op now st :
  mood (perform op now st).2 = mood st \/
  exists m, In m VALID_MOODS /\ mood (perform op now st).2 = Str m.
Proof.
  destruct op as [v|v|v|v|]; cbn [perform]; try (by left).
  - destruct (includes VALID_MOODS v) eqn:Hinc.
    + rewrite setMood_accepted by done.
      apply includes_In in Hinc as (m & -> & Hin). right. by exists m.
    + rewrite setMood_rejected by done. by left.
  - unfold moveTo. destruct (includes VALID_LOCATIONS v); by left.
Qed.

Lemma perform_location op now st :
  location (perform op now st).2 = location st \/
  exists l, In l VALID_LOCATIONS /\ location (perform op now st).2 = Str l.
Proof.
  destruct op as [v|v|v|v|]; cbn [perform]; try (by left).
  - unfold setMood. destruct (includes VALID_MOODS v); by left.
  - destruct (includes VALID_LOCATIONS v) eqn:Hinc.
    + rewrite moveTo_accepted by done.
      apply includes_In in Hinc as (l & -> & Hin). right. by exists l.
    + rewrite moveTo_rejected by done. by left.
Qed.

Lemma perform_focus op now st : focus (perform op now st).2 = focus st.
Proof.
  destruct op as [v|v|v|v|]; cbn [perform]; try done.
  - unfold setMood. by destruct (includes VALID_MOODS v).
  - unfold moveTo. by destruct (includes VALID_LOCATIONS v).
Qed.

Lemma perform_last_updated op now st :
  last_updated (perform op now st).2 = last_updated st \/
  last_updated (perform op now st).2 = Str (toISOString now).
Proof.
  destruct op as [v|v|v|v|]; cbn [perform]; try (by right); try (by left).
  - unfold setMood. destruct (includes VALID_MOODS v); [by right | by left].
  - unfold moveTo. destruct (includes VALID_LOCATIONS v); [by right | by left].
Qed.

(** ** C1: the enumerated fields stay inside their sets *)

(** C1. In every state reachable from the start-up record by any sequence
    of the five handler operations, whatever their inputs (strings in
    particular), [mood] is one of the eight strings of [VALID_MOODS] and
    [location] one of the six strings of [VALID_LOCATIONS]. *)
Theorem mood_and_location_stay_valid (st : SanctuaryState) :
  reachable st ->
  (exists m, mood st = Str m /\ In m VALID_MOODS) /\
  (exists l, location st = Str l /\ In l VALID_LOCATIONS) /\
  (length VALID_MOODS = 8%nat /\ NoDup VALID_MOODS) /\
  (length VALID_LOCATIONS = 6%nat /\ NoDup VALID_LOCATIONS).
Proof.
  intros Hreach.
  assert (Hsets : (length VALID_MOODS = 8%nat /\ NoDup VALID_MOODS) /\
                  (length VALID_LOCATIONS = 6%nat /\ NoDup VALID_LOCATIONS)).
  { repeat split; try reflexivity; compute_done. }
  destruct Hsets as [Hm Hl].
  repeat split; try tauto; clear Hm Hl.
  - induction Hreach as [|op now st _ IH].
    + exists "neutral". split; [done|]. simpl. tauto.
    + destruct (perform_mood op now st) as [-> | (m & Hin & ->)]; eauto.
  - induction Hreach as [|op now st _ IH].
    + exists "desk". split; [done|]. simpl. tauto.
    + destruct (perform_location op now st) as [-> | (l & Hin & ->)]; eauto.
Qed.

Lemma mood_and_location_stay_valid_witness :
  let st :=
    (perform (move_to (Str "attic")) 7
       (perform (set_mood (Str "curious")) 5 state).2).2 in
  reachable st /\
  (exists m, mood st = Str m /\ In m VALID_MOODS) /\
  (exists l, location st = Str l /\ In l VALID_LOCATIONS) /\
  (length VALID_MOODS = 8%nat /\ NoDup VALID_MOODS) /\
  (length VALID_LOCATIONS = 6%nat /\ NoDup VALID_LOCATIONS).
Proof.
  intros st.
  assert (Hreach : reachable st)
    by (do 2 apply reachable_step; apply reachable_start).
  split; [exact Hreach | exact (mood_and_location_stay_valid st Hreach)].
Defined.

(** ** The order of ISO time stamps *)

(** *** Comparing zero-padded decimal fields *)

Lemma compare_cons (a b : ascii) (s1 s2 : string) :
  String.compare (String a s1) (String b s2) =
  lex (Ascii.compare a b) (String.compare s1 s2).
Proof. reflexivity. Qed.

Lemma compare_cons_same (c : ascii) (s1 s2 : string) :
  String.compare (String c s1) (String c s2) = String.compare s1 s2.
Proof.
  rewrite compare_cons. unfold Ascii.compare. by rewrite N.compare_refl.
Qed.

Lemma digit_compare x y :
  0 <= x <= 9 -> 0 <= y <= 9 -> Ascii.compare (digit x) (digit y) = (x ?= y).
Proof.
  intros Hx Hy.
  assert (Hx' : x = 0 \/ x = 1 \/ x = 2 \/ x = 3 \/ x = 4 \/ x = 5 \/ x = 6 \/
                x = 7 \/ x = 8 \/ x = 9) by lia.
  assert (Hy' : y = 0 \/ y = 1 \/ y = 2 \/ y = 3 \/ y = 4 \/ y = 5 \/ y = 6 \/
                y = 7 \/ y = 8 \/ y = 9) by lia.
  clear Hx Hy.
  repeat (destruct Hx' as [-> | Hx']); try subst x;
    repeat (destruct Hy' as [-> | Hy']); try subst y; reflexivity.
Qed.

Lemma lex_digits a b (c : comparison) :
  lex (a / 10 ?= b / 10) (lex (a mod 10 ?= b mod 10) c) = lex (a ?= b) c.
Proof.
  destruct (Z.compare_spec (a / 10) (b / 10)) as [Hq | Hq | Hq];
  destruct (Z.compare_spec (a mod 10) (b mod 10)) as [Hr | Hr | Hr];
  destruct (Z.compare_spec a b) as [Hc | Hc | Hc];
  cbn [lex]; try reflexivity; exfalso;
  revert Hq Hr Hc; Z.div_mod_to_equations; lia.
Qed.

Lemma pad_append w n s :
  pad (S w) n +:+ s = pad w (n / 10) +:+ String (digit (n mod 10)) s.
Proof. cbn [pad]. by rewrite append_assoc. Qed.

Lemma pad_compare w : forall a b s1 s2,
  0 <= a < 10 ^ Z.of_nat w -> 0 <= b < 10 ^ Z.of_nat w ->
  String.compare (pad w a +:+ s1) (pad w b +:+ s2) =
  lex (a ?= b) (String.compare s1 s2).
Proof.
  induction w as [|w IH]; intros a b s1 s2 Ha Hb.
  - assert (a = 0) as -> by (cbn in Ha; lia).
    assert (b = 0) as -> by (cbn in Hb; lia). reflexivity.
  - rewrite Nat2Z.inj_succ, Z.pow_succ_r in Ha, Hb by lia.
    rewrite !pad_append.
    rewrite IH by (Z.div_mod_to_equations; lia).
    rewrite compare_cons, digit_compare by (Z.div_mod_to_equations; lia).
    apply lex_digits.
Qed.

(** *** The calendar arithmetic of [civil_from_days] *)

Lemma era_split z0 z :
  z0 < z ->
  z0 / 146097 < z / 146097 \/
  (z0 / 146097 = z / 146097 /\
   z0 - z0 / 146097 * 146097 < z - z / 146097 * 146097).
Proof. intros H. Z.div_mod_to_equations. lia. Qed.

Lemma day_of_era_range z :
  0 <= z - z / 146097 * 146097 < 146097.
Proof. Z.div_mod_to_equations. lia. Qed.

Lemma year_of_era_range doe :
  0 <= doe < 146097 ->
  0 <= year_of_era doe <= 399 /\
  0 <= day_of_year doe (year_of_era doe) <= 365.
Proof.
  intros H. unfold day_of_year, year_of_era. Z.div_mod_to_equations. lia.
Qed.

Lemma year_of_era_mono a b :
  0 <= a <= b -> b < 146097 -> year_of_era a <= year_of_era b.
Proof. intros H1 H2. unfold year_of_era. Z.div_mod_to_equations. lia. Qed.

Lemma day_of_year_mono a b yoe :
  a < b -> day_of_year a yoe < day_of_year b yoe.
Proof. unfold day_of_year. lia. Qed.

Lemma month_range doy :
  0 <= doy <= 365 ->
  0 <= month_index doy <= 11 /\
  1 <= day_of_month doy (month_index doy) <= 31.
Proof.
  intros H. unfold day_of_month, month_index. Z.div_mod_to_equations. lia.
Qed.

Lemma month_mono a b :
  0 <= a < b -> b <= 365 ->
  month_index a < month_index b \/
  (month_index a = month_index b /\
   day_of_month a (month_index a) < day_of_month b (month_index b)).
Proof.
  intros H1 H2. unfold day_of_month, month_index. Z.div_mod_to_equations. lia.
Qed.

Lemma civil_from_days_range days :
  1 <= (civil_from_days days).1.2 <= 12 /\
  1 <= (civil_from_days days).2 <= 31.
Proof.
  unfold civil_from_days. cbv zeta. cbn [fst snd].
  set (z := days + 719468).
  pose proof (day_of_era_range z) as Hdoe.
  set (doe := z - z / 146097 * 146097) in *.
  pose proof (year_of_era_range doe Hdoe) as [Hyoe Hdoy].
  set (yoe := year_of_era doe) in *.
  set (doy := day_of_year doe yoe) in *.
  pose proof (month_range doy Hdoy) as [Hmp Hd].
  set (mp := month_index doy) in *.
  destruct (Z.ltb_spec mp 10); lia.
Qed.

Lemma civil_from_days_mono a b :
  a < b -> date_lt (civil_from_days a) (civil_from_days b).
Proof.
  intros Hab. unfold civil_from_days, date_lt. cbv zeta. cbn [fst snd].
  assert (Hz : a + 719468 < b + 719468) by lia.
  set (z1 := a + 719468) in *. set (z2 := b + 719468) in *.
  pose proof (era_split z1 z2 Hz) as Hera.
  pose proof (day_of_era_range z1) as Hdoe1.
  pose proof (day_of_era_range z2) as Hdoe2.
  set (era1 := z1 / 146097) in *. set (era2 := z2 / 146097) in *.
  set (doe1 := z1 - era1 * 146097) in *.
  set (doe2 := z2 - era2 * 146097) in *.
  pose proof (year_of_era_range doe1 Hdoe1) as [Hyoe1 Hdoy1].
  pose proof (year_of_era_range doe2 Hdoe2) as [Hyoe2 Hdoy2].
  assert (Hyoe : era1 = era2 -> year_of_era doe1 <= year_of_era doe2).
  { intros He. apply year_of_era_mono; lia. }
  assert (Hdoy : era1 = era2 -> year_of_era doe1 = year_of_era doe2 ->
                 day_of_year doe1 (year_of_era doe1)
                   < day_of_year doe2 (year_of_era doe2)).
  { intros He ->. apply day_of_year_mono. lia. }
  set (yoe1 := year_of_era doe1) in *. set (yoe2 := year_of_era doe2) in *.
  set (doy1 := day_of_year doe1 yoe1) in *.
  set (doy2 := day_of_year doe2 yoe2) in *.
  pose proof (month_range doy1 Hdoy1) as [Hmp1 Hd1].
  pose proof (month_range doy2 Hdoy2) as [Hmp2 Hd2].
  assert (Hmonth : doy1 < doy2 ->
                   month_index doy1 < month_index doy2 \/
                   (month_index doy1 = month_index doy2 /\
                    day_of_month doy1 (month_index doy1)
                      < day_of_month doy2 (month_index doy2))).
  { intros Hlt. apply month_mono; lia. }
  set (mp1 := month_index doy1) in *. set (mp2 := month_index doy2) in *.
  set (d1 := day_of_month doy1 mp1) in *.
  set (d2 := day_of_month doy2 mp2) in *.
  clearbody d1 d2 mp1 mp2 doy1 doy2 yoe1 yoe2 doe1 doe2 era1 era2.
  destruct (Z.ltb_spec mp1 10), (Z.ltb_spec mp2 10);
    repeat match goal with
    | |- context [?x <=? 2] => destruct (Z.leb_spec x 2)
    end; lia.
Qed.

Lemma civil_from_days_year t :
  four_digit_year t -> 0 <= (civil_from_days (Day t)).1.1 <= 9999.
Proof.
  intros Ht. unfold four_digit_year in Ht.
  assert (Hday : -719528 <= Day t <= 2932896)
    by (unfold Day, msPerDay; Z.div_mod_to_equations; lia).
  split.
  - destruct (Z.eq_dec (Day t) (-719528)) as [-> | Hne]; [by vm_compute|].
    assert (Hlt : -719528 < Day t) by lia.
    apply civil_from_days_mono in Hlt. unfold date_lt in Hlt.
    change (civil_from_days (-719528)) with (0, 1, 1) in Hlt.
    cbn [fst snd] in Hlt. lia.
  - destruct (Z.eq_dec (Day t) 2932896) as [-> | Hne]; [by vm_compute|].
    assert (Hlt : Day t < 2932896) by lia.
    apply civil_from_days_mono in Hlt. unfold date_lt in Hlt.
    change (civil_from_days 2932896) with (9999, 12, 31) in Hlt.
    cbn [fst snd] in Hlt.
    pose proof (civil_from_days_range (Day t)). lia.
Qed.

Lemma compare_separator (c : ascii) (s1 s2 : string) :
  String.compare (String c "" +:+ s1) (String c "" +:+ s2)
  = String.compare s1 s2.
Proof. apply compare_cons_same. Qed.

Lemma toISOString_compare t1 t2 :
  four_digit_year t1 -> four_digit_year t2 ->
  String.compare (toISOString t1) (toISOString t2)
  = compare_fields (fields t1) (fields t2).
Proof.
  intros H1 H2. unfold toISOString, fields.
  pose proof (civil_from_days_year t1 H1) as Hy1.
  pose proof (civil_from_days_year t2 H2) as Hy2.
  pose proof (civil_from_days_range (Day t1)) as [Hm1 Hd1].
  pose proof (civil_from_days_range (Day t2)) as [Hm2 Hd2].
  destruct (civil_from_days (Day t1)) as [[y1 m1] d1].
  destruct (civil_from_days (Day t2)) as [[y2 m2] d2].
  cbn [fst snd] in *.
  assert (Hms1 : 0 <= TimeWithinDay t1 < 86400000)
    by (unfold TimeWithinDay, msPerDay; Z.div_mod_to_equations; lia).
  assert (Hms2 : 0 <= TimeWithinDay t2 < 86400000)
    by (unfold TimeWithinDay, msPerDay; Z.div_mod_to_equations; lia).
  set (ms1 := TimeWithinDay t1) in *. set (ms2 := TimeWithinDay t2) in *.
  unfold year_string.
  rewrite (proj2 (andb_true_iff _ _)), (proj2 (andb_true_iff _ _))
    by (split; lia).
  cbn [compare_fields].
  repeat first
    [ rewrite compare_separator
    | rewrite pad_compare
        by (change (10 ^ Z.of_nat 4) with 10000;
            change (10 ^ Z.of_nat 3) with 1000;
            change (10 ^ Z.of_nat 2) with 100;
            Z.div_mod_to_equations; lia) ].
  reflexivity.
Qed.

Lemma time_fields_mono a b :
  0 <= a <= b -> b < 86400000 ->
  compare_fields
    [ a / 3600000; a / 60000 mod 60; a / 1000 mod 60; a mod 1000 ]
    [ b / 3600000; b / 60000 mod 60; b / 1000 mod 60; b mod 1000 ] <> Gt.
Proof.
  intros Hab Hb. cbn [compare_fields].
  destruct (Z.compare_spec (a / 3600000) (b / 3600000)) as [H1|H1|H1];
    cbn [lex]; [|done|exfalso; Z.div_mod_to_equations; lia].
  destruct (Z.compare_spec (a / 60000 mod 60) (b / 60000 mod 60))
    as [H2|H2|H2];
    cbn [lex]; [|done|exfalso; Z.div_mod_to_equations; lia].
  destruct (Z.compare_spec (a / 1000 mod 60) (b / 1000 mod 60))
    as [H3|H3|H3];
    cbn [lex]; [|done|exfalso; Z.div_mod_to_equations; lia].
  destruct (Z.compare_spec (a mod 1000) (b mod 1000)) as [H4|H4|H4];
    cbn [lex]; [done|done|exfalso; Z.div_mod_to_equations; lia].
Qed.

Lemma fields_mono t1 t2 :
  t1 <= t2 -> compare_fields (fields t1) (fields t2) <> Gt.
Proof.
  intros Hle. unfold fields.
  assert (Hday : Day t1 < Day t2 \/
                 (Day t1 = Day t2 /\ TimeWithinDay t1 <= TimeWithinDay t2))
    by (unfold Day, TimeWithinDay, msPerDay; Z.div_mod_to_equations; lia).
  assert (Hms1 : 0 <= TimeWithinDay t1 < 86400000)
    by (unfold TimeWithinDay, msPerDay; Z.div_mod_to_equations; lia).
  assert (Hms2 : 0 <= TimeWithinDay t2 < 86400000)
    by (unfold TimeWithinDay, msPerDay; Z.div_mod_to_equations; lia).
  destruct Hday as [Hlt | [Heq Hms]].
  - apply civil_from_days_mono in Hlt. unfold date_lt in Hlt.
    destruct (civil_from_days (Day t1)) as [[y1 m1] d1].
    destruct (civil_from_days (Day t2)) as [[y2 m2] d2].
    cbn [fst snd] in Hlt. cbn [compare_fields].
    destruct (Z.compare_spec y1 y2); cbn [lex]; [|done|lia].
    destruct (Z.compare_spec m1 m2); cbn [lex]; [|done|lia].
    destruct (Z.compare_spec d1 d2); cbn [lex]; [lia|done|lia].
  - rewrite Heq. destruct (civil_from_days (Day t2)) as [[y m] d].
    cbn [compare_fields]. rewrite !Z.compare_refl. cbn [lex].
    apply time_fields_mono; lia.
Qed.

(** Within the years 0000 to 9999 the renderings of two instants compare,
    as strings, the way the instants do. *)
Lemma toISOString_mono t1 t2 :
  four_digit_year t1 -> four_digit_year t2 -> t1 <= t2 ->
  String.leb (toISOString t1) (toISOString t2) = true.
Proof.
  intros H1 H2 Hle. unfold String.leb.
  rewrite toISOString_compare by done.
  pose proof (fields_mono t1 t2 Hle).
  by destruct (compare_fields (fields t1) (fields t2)).
Qed.

(** ** C2 and C3: [set_mood] against the mood set *)

(** Under a clock that never runs backwards the stored stamp was taken
    between start-up and the latest reading. *)
Lemma clocked_le start t st : clocked start t st -> start <= t.
Proof. induction 1; lia. Qed.

Lemma clocked_stamp start t st :
  clocked start t st -> stamped_between start t (last_updated st).
Proof.
  induction 1 as [start | start t op now st Hclk IH Hle].
  - by left.
  - pose proof (clocked_le _ _ _ Hclk) as Hstart.
    destruct (perform_last_updated op now st) as [-> | ->].
    + destruct IH as [-> | (t0 & Ht0 & ->)]; [by left|].
      right. exists t0. split; [lia | done].
    + right. exists now. split; [lia | done].
Qed.




(** C3. For every string [m] outside the mood set, [setMood] returns the
    rejection string, which lists every valid mood, and leaves the whole
    state record as it was: [mood] keeps its value and [last_updated] is
    not stamped. *)
Theorem set_mood_rejects_non_member
    (m : string) (now : Z) (st : SanctuaryState) :
  ~ In m VALID_MOODS ->
  setMood (Str m) now st =
    ("'" +:+ m +:+ "' - try one of: focused, contemplative, restless, "
       +:+ "content, tired, curious, affectionate, neutral", st) /\
  (forall v, In v VALID_MOODS -> occurs v (setMood (Str m) now st).1) /\
  mood (setMood (Str m) now st).2 = mood st /\
  last_updated (setMood (Str m) now st).2 = last_updated st.
Proof.
  intros Hnot. rewrite setMood_rejected by by apply includes_non_member.
  repeat split.
  intros v Hv. cbn [fst]. do 3 apply occurs_prepend. by apply occurs_join.
Qed.

Lemma set_mood_rejects_non_member_witness :
  ~ In "angry" VALID_MOODS /\
  setMood (Str "angry") 9 state =
    ("'angry' - try one of: focused, contemplative, restless, content, "
       +:+ "tired, curious, affectionate, neutral", state).
Proof.
  assert (Hnot : ~ In "angry" VALID_MOODS)
    by (simpl; intros H; repeat destruct H as [H|H]; discriminate || done).
  split; [exact Hnot|].
  exact (proj1 (set_mood_rejects_non_member "angry" 9 state Hnot)).
Defined.

(** ** C4: [move_to] against the location set *)




(** ** C5: the bearer-token gate of the mutating routes *)

Lemma or_empty_Some (s : string) : or_empty (Some s) = s.
Proof. unfold or_empty, truthy. by destruct s. Qed.

Lemma truthy_true (s : string) : truthy s = true <-> s <> "".
Proof. unfold truthy. destruct s; simpl; split; congruence. Qed.

Lemma startsWith_slice (s p : string) :
  startsWith s p = true <-> s = p +:+ slice s (String.length p).
Proof.
  unfold startsWith. revert s.
  induction p as [|c p IH]; intros s.
  - simpl. by destruct s.
  - destruct s as [|c' s]; [by simpl|].
    cbn [String.prefix String.length slice]. rewrite append_cons.
    destruct (ascii_dec c c') as [->|Hne].
    + rewrite IH. split; [by intros <- | by intros [= <-]].
    + split; [done | by intros [= <-]].
Qed.

Lemma slice_append (p t : string) : slice (p +:+ t) (String.length p) = t.
Proof. induction p as [|c p IH]; [reflexivity | exact IH]. Qed.

(** [checkAuth] accepts exactly the header [Bearer <AUTH_TOKEN>]. *)
Lemma checkAuth_exact (env : option string) (req : Request) :
  checkAuth env req = true <->
  authorization req = Some ("Bearer " +:+ AUTH_TOKEN env).
Proof.
  unfold checkAuth. destruct (authorization req) as [h|].
  - rewrite or_empty_Some.
    destruct (startsWith h "Bearer ") eqn:Hpre.
    + apply startsWith_slice in Hpre. rewrite String.eqb_eq. split.
      * intros <-. f_equal. exact Hpre.
      * intros [= ->]. apply (slice_append "Bearer ").
    + split; [done|]. intros [= ->].
      by rewrite (proj2 (startsWith_slice _ "Bearer ")) in Hpre
        by by rewrite (slice_append "Bearer ").
  - cbn. split; [done | done].
Qed.




(** ** C7 and C10: the tool-call dispatcher *)

(** C7. A tool call whose name is none of the five catalog names gets the
    normal textual result [Unknown tool: <name>]; the state record is left
    as it was and the dispatch completes normally (nothing is thrown). *)
Theorem unknown_tool_is_reported
    (n : string) (args : option (gmap string value))
    (now : Z) (st : SanctuaryState) :
  ~ In n (map name tools) ->
  callTool n args now st = (Normal ("Unknown tool: " +:+ n), st).
Proof.
  intros Hnot. unfold callTool.
  repeat match goal with
  | |- context [String.eqb n ?k] =>
      destruct (String.eqb_spec n k) as [-> | _];
      [exfalso; apply Hnot; simpl; tauto|]
  end.
  reflexivity.
Qed.

Lemma unknown_tool_is_reported_witness :
  ~ In "update_presence" (map name tools) /\
  callTool "update_presence" (Some {[ "mood" := Str "tired" ]}) 5 state =
    (Normal "Unknown tool: update_presence", state).
Proof.
  assert (Hnot : ~ In "update_presence" (map name tools))
    by (simpl; intros H; repeat destruct H as [H|H]; discriminate || done).
  split; [exact Hnot|].
  exact (unknown_tool_is_reported "update_presence" _ 5 state Hnot).
Defined.

Lemma opt_member_lacks args k : lacks args k -> opt_member args k = Undefined.
Proof.
  destruct args as [o|]; [|done]. cbn [lacks opt_member]. unfold get.
  by intros ->.
Qed.

(** C10. A [set_mood] or [move_to] tool call whose arguments object has
    no [mood] (no [location]) property, or no arguments object at all,
    takes the rejection branch: the dispatch completes normally with the
    rejection string listing the valid set, and the state record is left
    as it was. *)
Theorem missing_argument_is_rejected
    (args : option (gmap string value)) (now : Z) (st : SanctuaryState) :
  (lacks args "mood" ->
     callTool "set_mood" args now st =
       (Normal ("'undefined' - try one of: focused, contemplative, restless, "
                  +:+ "content, tired, curious, affectionate, neutral"), st)) /\
  (lacks args "location" ->
     callTool "move_to" args now st =
       (Normal ("'undefined' - try one of: desk, window, couch, kitchen, "
                  +:+ "bookshelf, center"), st)).
Proof.
  split; intros Hlacks; unfold callTool; cbn [String.eqb Ascii.eqb];
    rewrite (opt_member_lacks _ _ Hlacks).
  - by rewrite setMood_rejected by apply includes_Undefined.
  - by rewrite moveTo_rejected by apply includes_Undefined.
Qed.

Lemma missing_argument_is_rejected_witness :
  let args : option (gmap string value) := Some {[ "thought" := Str "hm" ]} in
  (lacks args "mood" /\
   callTool "set_mood" args 5 state =
     (Normal ("'undefined' - try one of: focused, contemplative, restless, "
                +:+ "content, tired, curious, affectionate, neutral"),
      state)) /\
  (lacks None "location" /\
   callTool "move_to" None 5 state =
     (Normal ("'undefined' - try one of: desk, window, couch, kitchen, "
                +:+ "bookshelf, center"), state)).
Proof.
  intros args.
  assert (Hmood : lacks args "mood") by by vm_compute.
  assert (Hloc : lacks None "location") by exact I.
  split.
  - split; [exact Hmood|].
    exact (proj1 (missing_argument_is_rejected args 5 state) Hmood).
  - split; [exact Hloc|].
    exact (proj2 (missing_argument_is_rejected None 5 state) Hloc).
Defined.

(** ** C8: what each handler leaves alone *)

(** C8. Each mutating handler writes at most its own field and
    [last_updated]: [setMood] leaves [location], [thought], [action] and
    [focus] as they were, [moveTo] leaves [mood], [thought], [action] and
    [focus], [think] leaves [mood], [location], [action] and [focus],
    [setAction] leaves [mood], [location], [thought] and [focus]; so no
    operation writes [focus], which is [null] in every reachable state. *)
Theorem handlers_write_only_their_field :
  (forall v now st,
     location (setMood v now st).2 = location st /\
     thought (setMood v now st).2 = thought st /\
     action (setMood v now st).2 = action st /\
     focus (setMood v now st).2 = focus st) /\
  (forall v now st,
     mood (moveTo v now st).2 = mood st /\
     thought (moveTo v now st).2 = thought st /\
     action (moveTo v now st).2 = action st /\
     focus (moveTo v now st).2 = focus st) /\
  (forall v now st,
     mood (think v now st).2 = mood st /\
     location (think v now st).2 = location st /\
     action (think v now st).2 = action st /\
     focus (think v now st).2 = focus st) /\
  (forall v now st,
     mood (setAction v now st).2 = mood st /\
     location (setAction v now st).2 = location st /\
     thought (setAction v now st).2 = thought st /\
     focus (setAction v now st).2 = focus st) /\
  (forall op now st, focus (perform op now st).2 = focus st) /\
  (forall st, reachable st -> focus st = Null).
Proof.
  repeat split.
  1-4: unfold setMood; by destruct (includes VALID_MOODS v).
  1-4: unfold moveTo; by destruct (includes VALID_LOCATIONS v).
  - apply perform_focus.
  - induction 1 as [|op now st _ IH]; [done|]. by rewrite perform_focus.
Qed.

Lemma handlers_write_only_their_field_witness :
  let st :=
    run [ (op_think (Str "hello"), 3); (set_mood (Str "tired"), 4);
          (move_to (Str "couch"), 5); (set_action (Str "reading"), 6) ]
        state in
  reachable st /\ focus st = Null /\
  thought (setMood (Str "content") 7 st).2 = Str "hello".
Proof.
  intros st.
  destruct handlers_write_only_their_field
    as (Hmood & _ & _ & _ & _ & Hfocus).
  assert (Hreach : reachable st)
    by (do 4 apply reachable_step; apply reachable_start).
  split; [exact Hreach|]. split; [exact (Hfocus st Hreach)|].
  destruct (Hmood (Str "content") 7 st) as (_ & -> & _). reflexivity.
Defined.

(** ** C9: a stamp, once taken, stays *)

(** C9. No operation of the five handlers returns [last_updated] to
    [null]: if it is not [null] before an operation it is not [null]
    after it, and if it holds a time stamp it holds one afterwards; the
    same over any sequence of operations, and every accepted mutation
    leaves a time stamp. *)
Theorem last_updated_never_reset :
  (forall op now st,
     last_updated st <> Null -> last_updated (perform op now st).2 <> Null) /\
  (forall op now st,
     (exists ts, last_updated st = Str ts) ->
     exists ts, last_updated (perform op now st).2 = Str ts) /\
  (forall calls st,
     (exists ts, last_updated st = Str ts) ->
     exists ts, last_updated (run calls st) = Str ts) /\
  (forall calls st,
     last_updated st <> Null -> last_updated (run calls st) <> Null) /\
  (forall op now st,
     (perform op now st).2 <> st ->
     last_updated (perform op now st).2 = Str (toISOString now)).
Proof.
  assert (Hnull : forall op now st,
    last_updated st <> Null -> last_updated (perform op now st).2 <> Null).
  { intros op now st Hne.
    by destruct (perform_last_updated op now st) as [-> | ->]. }
  assert (Hstr : forall op now st,
    (exists ts, last_updated st = Str ts) ->
    exists ts, last_updated (perform op now st).2 = Str ts).
  { intros op now st Hts.
    destruct (perform_last_updated op now st) as [-> | ->]; eauto. }
  repeat split; try assumption.
  - induction calls as [|[op now] rest IH]; intros st Hts; [done|].
    cbn [run]. by apply IH, Hstr.
  - induction calls as [|[op now] rest IH]; intros st Hne; [done|].
    cbn [run]. by apply IH, Hnull.
  - intros [v|v|v|v|] now st Hch; cbn [perform] in *; try done.
    + unfold setMood in *. by destruct (includes VALID_MOODS v).
    + unfold moveTo in *. by destruct (includes VALID_LOCATIONS v).
Qed.

Lemma last_updated_never_reset_witness :
  let st := (perform (set_mood (Str "tired")) 4 state).2 in
  let calls := [ (set_mood (Str "angry"), 5); (get_state, 6);
                 (move_to Undefined, 7) ] in
  (exists ts, last_updated st = Str ts) /\
  (exists ts, last_updated (run calls st) = Str ts).
Proof.
  intros st calls.
  destruct last_updated_never_reset as (_ & _ & Hrun & _).
  assert (Hts : exists ts, last_updated st = Str ts)
    by (eexists; reflexivity).
  split; [exact Hts | exact (Hrun calls st Hts)].
Defined.

(** ** C6: [get_state] is a pure read *)

Lemma read_units_unit c tail :
  read_units (escape_unit c +:+ tail) = prepend c (read_units tail).
Proof. destruct c as [[] [] [] [] [] [] [] []]; reflexivity. Qed.

Lemma read_units_escape s rest :
  read_units (escape s +:+ String dquote rest) = Some (s, rest).
Proof.
  induction s as [|c s IH]; [reflexivity|].
  cbn [escape]. by rewrite append_assoc, read_units_unit, IH.
Qed.

Lemma unquote_Quote s rest :
  unquote (QuoteJSONString s +:+ rest) = Some (s, rest).
Proof.
  unfold QuoteJSONString. rewrite append_cons, append_assoc, append_cons.
  cbn [unquote]. apply read_units_escape.
Qed.

Lemma expect_append p rest : expect p (p +:+ rest) = Some rest.
Proof.
  unfold expect.
  assert (Hpre : startsWith (p +:+ rest) p = true)
    by (apply startsWith_slice; by rewrite slice_append).
  unfold startsWith in Hpre. by rewrite Hpre, slice_append.
Qed.

Lemma read_value_text v rest :
  v <> Undefined ->
  read_value (default "" (SerializeJSONProperty v) +:+ rest) = Some (v, rest).
Proof.
  destruct v as [| |x]; intros Hdef; [done| |]; unfold read_value.
  - change (default "" (SerializeJSONProperty Null)) with "null".
    by rewrite (expect_append "null").
  - change (default "" (SerializeJSONProperty (Str x)))
      with (QuoteJSONString x).
    replace (expect "null" _) with (@None string) by reflexivity.
    by rewrite unquote_Quote.
Qed.

Lemma partial_defined props : partial props = map member_text (defined props).
Proof.
  induction props as [|[k v] rest IH]; [done|].
  unfold defined in *. rewrite filter_cons. cbn [partial snd].
  destruct v; cbn [SerializeJSONProperty]; case_decide; try done;
    rewrite IH; reflexivity.
Qed.

Lemma read_members_written ms :
  Forall (fun kv => kv.2 <> Undefined) ms -> ms <> [] ->
  forall fuel, (length ms <= fuel)%nat ->
  read_members fuel
    (join separator (map member_text ms) +:+ newline +:+ "}") = Some ms.
Proof.
  induction 1 as [|[k v] ms Hv Hms IH]; [done|].
  intros _ [|fuel] Hfuel; [cbn in Hfuel; lia|].
  cbn [length] in Hfuel. cbn [map].
  destruct ms as [|kv ms].
  - cbn [map join read_members]. unfold member_text. cbn [fst snd].
    rewrite !append_assoc, unquote_Quote, (expect_append ": ").
    rewrite read_value_text by done.
    by rewrite String.eqb_refl.
  - assert (Hjoin : forall m m' l, join separator (m :: m' :: l) =
                      m +:+ separator +:+ join separator (m' :: l)) by done.
    rewrite (map_cons _ kv), Hjoin. cbn [read_members].
    unfold member_text at 1. cbn [fst snd].
    rewrite !append_assoc, unquote_Quote, (expect_append ": ").
    rewrite read_value_text by done.
    replace (String.eqb _ (newline +:+ "}")) with false by reflexivity.
    rewrite expect_append, IH; [done | done | cbn [length] in *; lia].
Qed.

Lemma record_of_defined st : record_of (defined (properties st)) = st.
Proof. destruct st as [[] [] [] [] [] []]; reflexivity. Qed.

Lemma defined_properties_length st :
  (length (defined (properties st)) <= 6)%nat.
Proof. unfold defined. by rewrite length_filter. Qed.

Lemma Forall_defined props : Forall (fun kv => kv.2 <> Undefined) (defined props).
Proof.
  unfold defined. induction props as [|kv rest IH]; [constructor|].
  rewrite filter_cons. case_decide; [by constructor | done].
Qed.

Lemma stringify_object_empty props :
  partial props = [] -> stringify_object props = "{}".
Proof. intros H. unfold stringify_object. by rewrite H. Qed.

Lemma stringify_object_members props m ms :
  partial props = m :: ms ->
  stringify_object props =
    ("{" +:+ newline +:+ "  ")
      +:+ (join separator (m :: ms) +:+ newline +:+ "}").
Proof. intros H. unfold stringify_object. by rewrite H. Qed.

Lemma occurs_trans a b c : occurs a b -> occurs b c -> occurs a c.
Proof.
  intros (p & q & ->) (p' & q' & ->). exists (p' +:+ p), (q +:+ q').
  by rewrite !append_assoc.
Qed.

(** Every member of the text starts a line of its own. *)
Lemma occurs_line (x : string) (l : list string) :
  In x l ->
  occurs (newline +:+ "  " +:+ x) (newline +:+ "  " +:+ join separator l).
Proof.
  induction l as [|y l IH]; [done|].
  intros [-> | Hin].
  - destruct l as [|z l]; [apply occurs_refl|].
    change (join separator (x :: z :: l))
      with (x +:+ separator +:+ join separator (z :: l)).
    exists "", (separator +:+ join separator (z :: l)).
    by rewrite !append_assoc.
  - destruct l as [|z l]; [done|].
    change (join separator (y :: z :: l))
      with (y +:+ "," +:+ newline +:+ "  " +:+ join separator (z :: l)).
    do 4 apply occurs_prepend. by apply IH.
Qed.

(** The reader recovers the whole record from the text of [getState]. *)
Lemma read_state_getState st : read_state (getState st).1 = Some st.
Proof.
  cbn [getState fst].
  pose proof (partial_defined (properties st)) as Hpartial.
  pose proof (record_of_defined st) as Hrec.
  pose proof (defined_properties_length st) as Hlen.
  pose proof (Forall_defined (properties st)) as Hall.
  destruct (defined (properties st)) as [|kv ms] eqn:Hdef.
  - rewrite (stringify_object_empty _ Hpartial). by rewrite <- Hrec.
  - rewrite (stringify_object_members _ _ _ Hpartial).
    unfold read_state.
    replace (String.eqb _ "{}") with false by reflexivity.
    rewrite expect_append.
    change (join separator _) with (join separator (map member_text (kv :: ms))).
    by rewrite read_members_written, Hrec.
Qed.

Lemma well_typed_defined st : well_typed st -> defined (properties st) = properties st.
Proof.
  destruct st as [m l t a f u]. unfold well_typed. cbn [mood location
    thought action focus last_updated].
  intros ([? ->] & [? ->] & [? ->] & [? ->] & Hf & Hu).
  destruct Hf as [-> | [? ->]], Hu as [-> | [? ->]]; reflexivity.
Qed.

(** C6. [getState] leaves the state record exactly as it was, every field
    and [last_updated] in particular, and returns the text that
    [JSON.stringify(state, null, 2)] writes for the record; that text
    carries the full record: equal texts come only from equal records,
    and for a record shaped as the interface declares each of the six
    field names heads one member of the text. *)
Theorem get_state_is_a_pure_read (st : SanctuaryState) :
  (getState st).2 = st /\
  last_updated (getState st).2 = last_updated st /\
  (getState st).1 = stringify_object (properties st) /\
  (forall st', (getState st').1 = (getState st).1 -> st' = st) /\
  (well_typed st ->
   forall k,
     In k ["mood"; "location"; "thought"; "action"; "focus"; "last_updated"] ->
     occurs (newline +:+ "  " +:+ QuoteJSONString k +:+ ": ") (getState st).1).
Proof.
  repeat split.
  - intros st' Heq.
    pose proof (read_state_getState st') as H'.
    rewrite Heq, read_state_getState in H'. congruence.
  - intros Htyped k Hk. cbn [getState fst].
    assert (Hmember : exists v, In (member_text (k, v))
                                   (map member_text (properties st))).
    { cbn [In] in Hk. cbn [properties map In].
      repeat (destruct Hk as [<- | Hk]; [eexists; tauto|]). destruct Hk. }
    destruct Hmember as [v Hmember].
    pose proof (partial_defined (properties st)) as Hpartial.
    rewrite (well_typed_defined st Htyped) in Hpartial.
    rewrite (stringify_object_members _ _ _ Hpartial).
    change (member_text _ :: _) with (map member_text (properties st)).
    rewrite (append_assoc "{"), <- (append_assoc (newline +:+ "  ")).
    apply occurs_prepend, occurs_append.
    eapply occurs_trans; [|apply occurs_line, Hmember].
    unfold member_text. cbn [fst snd].
    rewrite <- !append_assoc. apply occurs_append.
    rewrite !append_assoc. apply occurs_refl.
Qed.

Lemma get_state_is_a_pure_read_witness :
  let st := (think (Str "hello") 1767225600123 state).2 in
  well_typed st /\
  (getState st).2 = st /\
  (getState st).1 =
    ("{" +:+ newline
      +:+ "  " +:+ QuoteJSONString "mood" +:+ ": "
      +:+ QuoteJSONString "neutral" +:+ "," +:+ newline
      +:+ "  " +:+ QuoteJSONString "location" +:+ ": "
      +:+ QuoteJSONString "desk" +:+ "," +:+ newline
      +:+ "  " +:+ QuoteJSONString "thought" +:+ ": "
      +:+ QuoteJSONString "hello" +:+ "," +:+ newline
      +:+ "  " +:+ QuoteJSONString "action" +:+ ": "
      +:+ QuoteJSONString "initializing" +:+ "," +:+ newline
      +:+ "  " +:+ QuoteJSONString "focus" +:+ ": null," +:+ newline
      +:+ "  " +:+ QuoteJSONString "last_updated" +:+ ": "
      +:+ QuoteJSONString "2026-01-01T00:00:00.123Z" +:+ newline
      +:+ "}") /\
  occurs (newline +:+ "  " +:+ QuoteJSONString "thought" +:+ ": ")
    (getState st).1.
Proof.
  intros st.
  assert (Htyped : well_typed st).
  { unfold well_typed, is_string_or_null, is_string. cbn.
    repeat split; eauto. }
  destruct (get_state_is_a_pure_read st) as (Hsame & _ & _ & _ & Hkeys).
  split; [exact Htyped|]. split; [exact Hsame|].
  split; [by vm_compute|].
  apply (Hkeys Htyped). cbn. tauto.
Defined.

(** ** The scenarios of the specification *)

Example scenario_mood_then_move :
  let st :=
    run [ (set_mood (Str "curious"), 1767225600123);
          (move_to (Str "window"), 1767225600456) ] state in
  st = {| mood := Str "curious"; location := Str "window";
          thought := Str ""; action := Str "initializing"; focus := Null;
          last_updated := Str "2026-01-01T00:00:00.456Z" |} /\
  read_state (getState st).1 = Some st.
Proof. split; vm_compute; reflexivity. Qed.

Example scenario_think_then_read :
  let st := (think (Str "hello") 1767225600123 state).2 in
  thought (getState st).2 = Str "hello" /\
  (thought <$> read_state (getState st).1) = Some (Str "hello").
Proof. split; vm_compute; reflexivity. Qed.

(** * Further properties of the handlers and the adapters *)

(** ** The record and its stamp *)

(** An operation either leaves the record as it was or stamps it. *)
Lemma perform_same_or_stamped op now st :
  (perform op now st).2 = st \/
  last_updated (perform op now st).2 = Str (toISOString now).
Proof.
  destruct op as [v|v|v|v|]; cbn [perform]; try (by right); try (by left).
  - unfold setMood. destruct (includes VALID_MOODS v); [by right | by left].
  - unfold moveTo. destruct (includes VALID_LOCATIONS v); [by right | by left].
Qed.

(** X1. A reachable record without a stamp is the start-up record: every
    write of [mood], [location], [thought] or [action] comes with a stamp
    of [last_updated], so [last_updated] is [null] exactly as long as
    nothing was written. *)
Theorem unstamped_record_is_startup (st : SanctuaryState) :
  reachable st -> (last_updated st = Null <-> st = state).
Proof.
  intros Hreach. split; [|by intros ->].
  induction Hreach as [|op now st _ IH]; [done|].
  destruct (perform_same_or_stamped op now st) as [-> | ->]; [exact IH|done].
Qed.

Lemma unstamped_record_is_startup_witness :
  let st :=
    run [ (set_mood (Str "angry"), 3); (get_state, 4); (move_to Null, 5) ]
        state in
  reachable st /\ last_updated st = Null /\ st = state.
Proof.
  intros st.
  assert (Hreach : reachable st)
    by (do 3 apply reachable_step; apply reachable_start).
  assert (Hnull : last_updated st = Null) by reflexivity.
  split; [exact Hreach|]. split; [exact Hnull|].
  exact (proj1 (unstamped_record_is_startup st Hreach) Hnull).
Defined.

(** X2. No history is kept: when a handler accepts a call, the record it
    leaves does not depend on an earlier call of the same handler; the
    record after both calls is the record after the second alone. *)
Theorem last_write_wins
    (op1 op2 : operation) (now1 now2 : Z) (st : SanctuaryState) :
  same_handler op1 op2 = true -> accepted op2 = true ->
  (perform op2 now2 (perform op1 now1 st).2).2 = (perform op2 now2 st).2.
Proof.
  destruct op1 as [v1|v1|v1|v1|], op2 as [v2|v2|v2|v2|];
    try discriminate; intros _ Hacc; cbn [perform accepted] in *;
    try reflexivity.
  - rewrite !(setMood_accepted v2) by done.
    unfold setMood. by destruct (includes VALID_MOODS v1).
  - rewrite !(moveTo_accepted v2) by done.
    unfold moveTo. by destruct (includes VALID_LOCATIONS v1).
Qed.

Lemma last_write_wins_witness :
  same_handler (set_mood (Str "tired")) (set_mood (Str "content")) = true /\
  accepted (set_mood (Str "content")) = true /\
  (perform (set_mood (Str "content")) 9
     (perform (set_mood (Str "tired")) 4 state).2).2
  = (perform (set_mood (Str "content")) 9 state).2.
Proof.
  split; [reflexivity|]. split; [reflexivity|].
  exact (last_write_wins (set_mood (Str "tired")) (set_mood (Str "content"))
           4 9 state eq_refl eq_refl).
Defined.

Lemma perform_well_typed op now st :
  free_text_is_string op -> well_typed st ->
  well_typed (perform op now st).2.
Proof.
  intros Hop (Hm & Hl & Ht & Ha & Hf & Hu).
  assert (Hstamp : is_string_or_null (Str (toISOString now)))
    by (right; by eexists).
  destruct op as [v|v|v|v|]; cbn [perform free_text_is_string] in *.
  - destruct (includes VALID_MOODS v) eqn:Hinc.
    + rewrite setMood_accepted by done.
      apply includes_In in Hinc as (m & -> & _).
      repeat split; try assumption; by eexists.
    + rewrite setMood_rejected by done. by repeat split.
  - destruct (includes VALID_LOCATIONS v) eqn:Hinc.
    + rewrite moveTo_accepted by done.
      apply includes_In in Hinc as (l & -> & _).
      repeat split; try assumption; by eexists.
    + rewrite moveTo_rejected by done. by repeat split.
  - by repeat split.
  - by repeat split.
  - by repeat split.
Qed.

(** X3. As long as [think] and [setAction] are called with strings, the
    record keeps the shape the interface declares, whatever [setMood] and
    [moveTo] are called with ([undefined] and [null] included): their
    validation keeps anything but a listed string out of the record. *)
Theorem record_keeps_the_interface
    (calls : list (operation * Z)) (st : SanctuaryState) :
  well_typed st ->
  Forall (fun call => free_text_is_string call.1) calls ->
  well_typed (run calls st).
Proof.
  intros Htyped Hcalls. revert st Htyped.
  induction Hcalls as [|[op now] rest Hop _ IH]; intros st Htyped; [done|].
  cbn [run]. apply IH. by apply perform_well_typed.
Qed.

Lemma record_keeps_the_interface_witness :
  let calls :=
    [ (set_mood Undefined, 3); (op_think (Str "hm"), 4); (move_to Null, 5);
      (set_action (Str "reading"), 6); (move_to (Str "couch"), 7) ] in
  well_typed state /\
  Forall (fun call => free_text_is_string call.1) calls /\
  well_typed (run calls state).
Proof.
  intros calls.
  assert (Hstart : well_typed state).
  { unfold well_typed, is_string_or_null, is_string. cbn.
    repeat split; eauto. }
  assert (Hcalls : Forall (fun call => free_text_is_string call.1) calls).
  { unfold calls.
    repeat (apply List.Forall_cons; [cbn; unfold is_string; eauto|]).
    apply List.Forall_nil. }
  split; [exact Hstart|]. split; [exact Hcalls|].
  exact (record_keeps_the_interface calls state Hstart Hcalls).
Defined.

(** ** Free-text handlers without their argument *)

(** X4. [think] and [set_action] called without their argument store
    [undefined]: the call is answered normally with the text
    [Thinking: 'undefined'] ([Now: undefined]), the record is stamped, it
    no longer has the shape the interface declares, and the text of
    [getState] has no member for the field. *)
Theorem free_text_without_argument
    (args : option (gmap string value)) (now : Z) (st : SanctuaryState) :
  (lacks args "thought" ->
     callTool "think" args now st =
       (Normal "Thinking: 'undefined'",
        set_last_updated_field (Str (toISOString now))
          (set_thought_field Undefined st)) /\
     ~ well_typed (callTool "think" args now st).2 /\
     (getState (callTool "think" args now st).2).1 =
       stringify_object
         [ ("mood", mood st); ("location", location st);
           ("action", action st); ("focus", focus st);
           ("last_updated", Str (toISOString now)) ]) /\
  (lacks args "action" ->
     callTool "set_action" args now st =
       (Normal "Now: undefined",
        set_last_updated_field (Str (toISOString now))
          (set_action_field Undefined st)) /\
     ~ well_typed (callTool "set_action" args now st).2 /\
     (getState (callTool "set_action" args now st).2).1 =
       stringify_object
         [ ("mood", mood st); ("location", location st);
           ("thought", thought st); ("focus", focus st);
           ("last_updated", Str (toISOString now)) ]).
Proof.
  split; intros Hlacks; unfold callTool; cbn [String.eqb Ascii.eqb];
    rewrite (opt_member_lacks _ _ Hlacks).
  - split; [reflexivity|]. split.
    + intros (_ & _ & [s Hs] & _). discriminate Hs.
    + reflexivity.
  - split; [reflexivity|]. split.
    + intros (_ & _ & _ & [s Hs] & _). discriminate Hs.
    + reflexivity.
Qed.

Lemma free_text_without_argument_witness :
  let args : option (gmap string value) := Some {[ "mood" := Str "tired" ]} in
  lacks args "thought" /\
  callTool "think" args 0 state =
    (Normal "Thinking: 'undefined'",
     {| mood := Str "neutral"; location := Str "desk"; thought := Undefined;
        action := Str "initializing"; focus := Null;
        last_updated := Str "1970-01-01T00:00:00.000Z" |}) /\
  ~ well_typed (callTool "think" args 0 state).2.
Proof.
  intros args.
  assert (Hlacks : lacks args "thought") by by vm_compute.
  destruct (proj1 (free_text_without_argument args 0 state) Hlacks)
    as (Hcall & Hshape & _).
  split; [exact Hlacks|]. split; [exact Hcall | exact Hshape].
Defined.

(** ** The catalog and the dispatcher *)

Lemma callTool_unknown n args now st :
  ~ In n (map name tools) ->
  callTool n args now st = (Normal ("Unknown tool: " +:+ n), st).
Proof.
  intros Hnot. unfold callTool.
  repeat match goal with
  | |- context [String.eqb n ?k] =>
      destruct (String.eqb_spec n k) as [-> | _];
      [exfalso; apply Hnot; simpl; tauto|]
  end.
  reflexivity.
Qed.

Lemma first_unit_stringify_object props :
  first_unit (stringify_object props) = Some "{"%char.
Proof. unfold stringify_object. by destruct (partial props). Qed.

(** The text of a catalog tool never starts like the unknown-tool text. *)
Lemma callTool_known_first_unit n args now st :
  In n (map name tools) ->
  exists text,
    (callTool n args now st).1 = Normal text /\
    first_unit text <> Some "U"%char.
Proof.
  intros Hin. cbn [map tools name In] in Hin.
  destruct Hin as [<- | [<- | [<- | [<- | [<- | []]]]]];
    unfold callTool; cbn [String.eqb Ascii.eqb].
  - unfold setMood. destruct (includes VALID_MOODS _);
      eexists; (split; [reflexivity | done]).
  - unfold moveTo. destruct (includes VALID_LOCATIONS _);
      eexists; (split; [reflexivity | done]).
  - eexists; (split; [reflexivity | done]).
  - eexists; (split; [reflexivity | done]).
  - eexists. split; [reflexivity|].
    cbn [getState fst]. by rewrite first_unit_stringify_object.
Qed.

(** X5. The catalog and the dispatcher agree on the names: a tool call is
    answered with the text [Unknown tool: <name>] exactly when the name is
    not one of the names the catalog lists. *)
Theorem catalog_names_are_dispatched
    (n : string) (args : option (gmap string value))
    (now : Z) (st : SanctuaryState) :
  In n (map name tools) <->
  (callTool n args now st).1 <> Normal ("Unknown tool: " +:+ n).
Proof.
  split.
  - intros Hin Heq.
    destruct (callTool_known_first_unit n args now st Hin)
      as (text & Htext & Hfirst).
    rewrite Htext in Heq. injection Heq as ->. by apply Hfirst.
  - intros Hne. destruct (in_dec string_dec n (map name tools)) as [|Hnot];
      [done|].
    destruct Hne. by rewrite callTool_unknown.
Qed.

Lemma catalog_names_are_dispatched_witness :
  (callTool "get_state" None 0 state).1 <> Normal "Unknown tool: get_state" /\
  (In "update_presence" (map name tools) -> False).
Proof.
  split.
  - apply (proj1 (catalog_names_are_dispatched "get_state" None 0 state)).
    simpl. tauto.
  - intros Hin.
    by apply (proj1 (catalog_names_are_dispatched "update_presence" None 0
                       state) Hin).
Defined.



(** ** The HTTP adapter beside the tool-call adapter *)

Lemma post_gate env r req now st :
  post env r req now st =
    if truthy (AUTH_TOKEN env) && negb (checkAuth env req)
    then (Normal (Status401 "Unauthorized"), st)
    else handled r req now st.
Proof. by destruct r. Qed.

Lemma handled_with_body r req o now st :
  body req = Some o ->
  handled r req now st =
    (as_response (callTool (route_tool r) (Some o) now st).1,
     (callTool (route_tool r) (Some o) now st).2).
Proof.
  intros Hbody.
  destruct r; unfold handled, respond; rewrite Hbody;
    cbn [member route_tool]; unfold callTool; cbn [String.eqb Ascii.eqb];
    cbn [opt_member];
    match goal with |- context [let '(_, _) := ?x in _] => by destruct x end.
Qed.

(** X7. A POST route and the tool of the same name run the same handler
    on the same property: when the request is let through (no token
    configured, or the header is [Bearer <token>]) and has a parsed body,
    the route answers with the text the tool call would return for the
    body as arguments object, and leaves the same record. *)
Theorem route_answers_as_the_tool
    (env : option string) (r : Route) (req : Request)
    (o : gmap string value) (now : Z) (st : SanctuaryState) :
  body req = Some o ->
  AUTH_TOKEN env = "" \/
    authorization req = Some ("Bearer " +:+ AUTH_TOKEN env) ->
  post env r req now st =
    (as_response (callTool (route_tool r) (Some o) now st).1,
     (callTool (route_tool r) (Some o) now st).2).
Proof.
  intros Hbody Hpass. rewrite post_gate.
  assert (Hgate : truthy (AUTH_TOKEN env) && negb (checkAuth env req) = false).
  { destruct Hpass as [-> | Hheader]; [done|].
    apply checkAuth_exact in Hheader. rewrite Hheader.
    by rewrite andb_false_r. }
  rewrite Hgate. by apply handled_with_body.
Qed.

Lemma route_answers_as_the_tool_witness :
  let o : gmap string value := {[ "location" := Str "couch" ]} in
  let req := {| authorization := Some "Bearer s3cret"; body := Some o |} in
  post (Some "s3cret") POST_move_to req 5 state =
    (Normal (Status200
       "Moved from desk to couch. Comfortable spot for reading or just being"),
     (callTool "move_to" (Some o) 5 state).2).
Proof.
  intros o req.
  rewrite (route_answers_as_the_tool (Some "s3cret") POST_move_to req o 5
             state eq_refl (or_intror eq_refl)).
  by vm_compute.
Defined.

Lemma post_unauthorized token r req now st :
  token <> "" ->
  authorization req <> Some ("Bearer " +:+ token) ->
  post (Some token) r req now st = (Normal (Status401 "Unauthorized"), st).
Proof.
  intros Htoken Hheader. rewrite post_gate.
  assert (Htok : AUTH_TOKEN (Some token) = token) by apply or_empty_Some.
  rewrite Htok, (proj2 (truthy_true token) Htoken).
  destruct (checkAuth (Some token) req) eqn:Hchk; [|done].
  apply checkAuth_exact in Hchk. rewrite Htok in Hchk. contradiction.
Qed.

(** X8. With a token configured, requests that do not carry
    [Bearer <token>] can never change the record, however many are sent
    and to whichever of the three routes: each is answered 401 and the
    record after the whole sequence is the record before it. *)
Theorem unauthorized_requests_change_nothing
    (token : string) (reqs : list (Route * Request * Z))
    (st : SanctuaryState) :
  token <> "" ->
  Forall (fun q => authorization q.1.2 <> Some ("Bearer " +:+ token)) reqs ->
  serve (Some token) reqs st =
    (map (fun _ => Normal (Status401 "Unauthorized")) reqs, st).
Proof.
  intros Htoken Hreqs.
  induction Hreqs as [|[[r req] now] rest Hreq _ IH]; [done|].
  cbn [serve map]. cbn [fst snd] in Hreq.
  by rewrite (post_unauthorized token r req now st Htoken Hreq), IH.
Qed.

Lemma unauthorized_requests_change_nothing_witness :
  let body : option (gmap string value) := Some {[ "mood" := Str "tired" ]} in
  let reqs :=
    [ (POST_set_mood, {| authorization := None; body := body |}, 3);
      (POST_set_mood,
       {| authorization := Some "bearer s3cret"; body := body |}, 4);
      (POST_think,
       {| authorization := Some "Bearer s3cret "; body := body |}, 5) ] in
  serve (Some "s3cret") reqs state =
    (map (fun _ => Normal (Status401 "Unauthorized")) reqs, state).
Proof.
  intros body reqs.
  apply (unauthorized_requests_change_nothing "s3cret" reqs state);
    [discriminate|].
  unfold reqs.
  repeat (apply List.Forall_cons; [cbn; discriminate|]).
  apply List.Forall_nil.
Defined.

(** X9. A POST request whose body was left unparsed never reaches a
    handler and never changes the record: it is answered 401 when the
    gate rejects it, and otherwise reading the field off the missing body
    throws a TypeError.  (A tool call without arguments object is instead
    served, with [undefined] as argument.) *)
Theorem request_without_body
    (env : option string) (r : Route) (req : Request)
    (now : Z) (st : SanctuaryState) :
  body req = None ->
  handled r req now st = (Throw "TypeError", st) /\
  (post env r req now st).2 = st /\
  ((post env r req now st).1 = Normal (Status401 "Unauthorized") \/
   (post env r req now st).1 = Throw "TypeError") /\
  exists text, (callTool (route_tool r) None now st).1 = Normal text.
Proof.
  intros Hbody.
  assert (Hhandled : handled r req now st = (Throw "TypeError", st)).
  { destruct r; unfold handled, respond; by rewrite Hbody. }
  split; [exact Hhandled|]. rewrite post_gate, Hhandled.
  split; [by destruct (_ && _)|]. split; [destruct (_ && _); tauto|].
  destruct r; unfold callTool; cbn [route_tool String.eqb Ascii.eqb];
    match goal with |- context [let '(_, _) := ?x in _] => destruct x end;
    by eexists.
Qed.

Lemma request_without_body_witness :
  let req := {| authorization := None; body := None |} in
  post None POST_think req 5 state = (Throw "TypeError", state) /\
  post (Some "s3cret") POST_think req 5 state =
    (Normal (Status401 "Unauthorized"), state).
Proof.
  intros req.
  destruct (request_without_body None POST_think req 5 state eq_refl)
    as (_ & Hstate & _ & _).
  split; [|reflexivity].
  apply injective_projections; [reflexivity | exact Hstate].
Defined.

Lemma post_action_focus env r req now st :
  action (post env r req now st).2 = action st /\
  focus (post env r req now st).2 = focus st.
Proof.
  rewrite post_gate. destruct (_ && _); [done|].
  destruct r; unfold handled, respond;
    (destruct (member (body req) _) as [v|]; [|done]).
  - unfold setMood. by destruct (includes VALID_MOODS v).
  - unfold moveTo. by destruct (includes VALID_LOCATIONS v).
  - done.
Qed.

(** X10. The HTTP adapter has no route to [setAction]: whatever sequence
    of POST requests is served, authorised or not, [action] and [focus]
    are left as they were. *)
Theorem http_never_writes_action
    (env : option string) (reqs : list (Route * Request * Z))
    (st : SanctuaryState) :
  action (serve env reqs st).2 = action st /\
  focus (serve env reqs st).2 = focus st.
Proof.
  revert st. induction reqs as [|[[r req] now] rest IH]; intros st; [done|].
  cbn [serve].
  destruct (post env r req now st) as [answer st1] eqn:Hpost.
  specialize (IH st1). destruct (serve env rest st1) as [answers st2].
  cbn [snd] in *.
  pose proof (post_action_focus env r req now st) as Hframe.
  rewrite Hpost in Hframe. cbn [snd] in Hframe.
  destruct IH as [-> ->]. exact Hframe.
Qed.

(** ** Writes seen through [get_state] *)






(** ** The GET routes *)





(** ** Stamps along a run *)

Lemma leb_refl (s : string) : String.leb s s = true.
Proof.
  unfold String.leb.
  assert (Heq : String.compare s s = Eq)
    by (induction s as [|c s IH]; [done | by rewrite compare_cons_same]).
  by rewrite Heq.
Qed.

Lemma clock_ordered_reading t calls now :
  clock_ordered t calls -> In now (map snd calls) -> t <= now.
Proof.
  revert t. induction calls as [|[op t1] rest IH]; intros t; [intros _ []|].
  cbn [clock_ordered map In snd]. intros [Hle Hrest] [<- | Hin]; [done|].
  specialize (IH _ Hrest Hin). lia.
Qed.

(** After a sequence of calls the stamp is the one before it or the
    rendering of one of the readings of the sequence. *)
Lemma run_last_updated calls st :
  last_updated (run calls st) = last_updated st \/
  exists now,
    In now (map snd calls) /\
    last_updated (run calls st) = Str (toISOString now).
Proof.
  revert st. induction calls as [|[op t1] rest IH]; intros st; [by left|].
  cbn [run map In snd].
  destruct (IH (perform op t1 st).2) as [-> | (now & Hin & ->)];
    [|right; eauto].
  destruct (perform_last_updated op t1 st) as [-> | ->];
    [by left | right; eauto].
Qed.

(** X13. Under a clock that does not run backwards and stays within the
    years 0000 to 9999, [last_updated] never goes back over any sequence
    of calls: the stamp after the sequence is, as a string, greater than
    or equal to the stamp before it (and a stamp is never lost). *)
Theorem stamps_never_go_back
    (start t : Z) (calls : list (operation * Z)) (st : SanctuaryState) :
  clocked start t st -> clock_ordered t calls ->
  four_digit_year start ->
  Forall (fun call => four_digit_year call.2) calls ->
  stamp_le (last_updated st) (last_updated (run calls st)).
Proof.
  intros Hclk Hord Hstart Hcalls.
  destruct (clocked_stamp _ _ _ Hclk) as [-> | (t0 & Ht0 & Hprev)]; [done|].
  rewrite Hprev.
  destruct (run_last_updated calls st) as [-> | (now & Hin & ->)].
  - rewrite Hprev. cbn [stamp_le]. apply leb_refl.
  - cbn [stamp_le].
    pose proof (clock_ordered_reading _ _ _ Hord Hin) as Hle.
    assert (Hnow : four_digit_year now).
    { rewrite List.Forall_forall in Hcalls.
      apply in_map_iff in Hin as ([op now'] & <- & Hmem).
      exact (Hcalls _ Hmem). }
    apply toISOString_mono; unfold four_digit_year in *; lia.
Qed.

Lemma stamps_never_go_back_witness :
  let st := (perform (op_think (Str "hello")) 1767225600123 state).2 in
  let calls :=
    [ (set_mood (Str "angry"), 1767225600500);
      (move_to (Str "couch"), 1767225601000); (get_state, 1767225602000) ] in
  last_updated st = Str "2026-01-01T00:00:00.123Z" /\
  last_updated (run calls st) = Str "2026-01-01T00:00:01.000Z" /\
  stamp_le (last_updated st) (last_updated (run calls st)).
Proof.
  intros st calls.
  split; [reflexivity|]. split; [reflexivity|].
  apply (stamps_never_go_back 1767225600000 1767225600123 calls st).
  - apply (clocked_step _ 1767225600000); [apply clocked_start | lia].
  - cbn. lia.
  - unfold four_digit_year. lia.
  - unfold calls.
    repeat (apply List.Forall_cons; [unfold four_digit_year; cbn; lia|]).
    apply List.Forall_nil.
Defined.

(** ** Telling a rejection from a success *)

(** X14. The answer of [setMood] and [moveTo] tells whether the call was
    accepted: it starts with an apostrophe exactly when the argument was
    rejected, and with [M] exactly when it was stored. *)
Theorem answer_tells_rejection (v : value) (now : Z) (st : SanctuaryState) :
  (first_unit (setMood v now st).1 = Some "'"%char <->
     includes VALID_MOODS v = false) /\
  (first_unit (setMood v now st).1 = Some "M"%char <->
     includes VALID_MOODS v = true) /\
  (first_unit (moveTo v now st).1 = Some "'"%char <->
     includes VALID_LOCATIONS v = false) /\
  (first_unit (moveTo v now st).1 = Some "M"%char <->
     includes VALID_LOCATIONS v = true).
Proof.
  unfold setMood, moveTo.
  destruct (includes VALID_MOODS v), (includes VALID_LOCATIONS v);
    repeat split; intros H; (done || discriminate H).
Qed.

(** ** Calls of different handlers *)

(** X15. Calls of two different handlers do not interfere: in either
    order they leave the same [mood], [location], [thought], [action] and
    [focus], and the same record altogether when both read the same clock
    value. *)
Theorem different_handlers_commute
    (op1 op2 : operation) (t1 t2 : Z) (st : SanctuaryState) :
  same_handler op1 op2 = false ->
  let a := (perform op2 t2 (perform op1 t1 st).2).2 in
  let b := (perform op1 t1 (perform op2 t2 st).2).2 in
  mood a = mood b /\ location a = location b /\ thought a = thought b /\
  action a = action b /\ focus a = focus b /\
  (t1 = t2 -> a = b).
Proof.
  intros Hdiff a b. subst a b.
  destruct op1 as [v1|v1|v1|v1|], op2 as [v2|v2|v2|v2|];
    try discriminate Hdiff; cbn [perform];
    unfold setMood, moveTo, think, setAction, getState;
    repeat match goal with
    | |- context [includes ?xs ?v] => destruct (includes xs v)
    end;
    cbn [negb fst snd];
    (repeat split; try reflexivity; intros ->; reflexivity).
Qed.

Lemma different_handlers_commute_witness :
  let op1 := set_mood (Str "tired") in
  let op2 := move_to (Str "couch") in
  same_handler op1 op2 = false /\
  (perform op2 7 (perform op1 7 state).2).2
  = (perform op1 7 (perform op2 7 state).2).2.
Proof.
  intros op1 op2. split; [reflexivity|].
  destruct (different_handlers_commute op1 op2 7 7 state eq_refl)
    as (_ & _ & _ & _ & _ & Hsame).
  exact (Hsame eq_refl).
Defined.
